(** * edc_sync: the synchronisation mixin of syncable models

    A shallow embedding of [edc_sync/models/sync_model_mixin.py] (class
    [SyncModelMixin]) together with the parts of its environment the
    methods talk to: the Django settings, the per-database [Producer]
    and [OutgoingTransaction] tables, the host name and the wall clock.
    The save path and the consumer of incoming transactions, which call
    into the mixin from outside that file, follow the specification.

    Conventions.
    - A Python value that is only ever tested for truth is a [PyVal].
    - A settings attribute that may be absent is an [option]: [None] is
      the [AttributeError] branch of the source.
    - Database effects are explicit: a method that touches a table is a
      function [World -> Result _ * World]; a raised exception leaves the
      world as it was when the exception left the method. *)

From Stdlib Require Import NArith Ascii String List Lia Bool.
From stdpp Require Import base gmap strings.

Open Scope string_scope.

(** ** Python values and exceptions *)

(** The values the overridable predicates of the mixin return. *)
Inductive PyVal : Type :=
| PyNone
| PyBool (b : bool).

(** Truth value testing: [None] and [False] are false. *)
Definition truthy (v : PyVal) : bool :=
  match v with
  | PyNone => false
  | PyBool b => b
  end.

(** Truth of an optional keyword argument ([created=None], [deleted=None]). *)
Definition truthy_opt (v : option bool) : bool :=
  match v with
  | None => false
  | Some b => b
  end.

(** The exceptions the mixin raises or catches. *)
Inductive Exn : Type :=
| SyncError (msg : string)
| AssertionError (msg : string)
| ImproperlyConfigured (msg : string)
| IntegrityError
| DoesNotExist.

Inductive Result (A : Type) : Type :=
| Ok (a : A)
| Raise (e : Exn).
Arguments Ok {A} a.
Arguments Raise {A} e.

(** ** Settings *)

(** [django.conf.settings], restricted to the two switches the mixin
  reads.  [None] stands for an attribute that is not set. *)
Record Settings : Type := mkSettings {
  ALLOW_MODEL_SERIALIZATION : option bool;
  ALLOW_AUDIT_TRAIL_MODEL_SERIALIZATION : option bool
}.

(** Neither switch is set: both default to enabled. *)
Definition default_settings : Settings := mkSettings None None.

(** ** Model classes and instances *)

(** Field values of an instance, by field name. *)
Abbreviation Fields := (list (string * string)).

(** A manager; only the presence of [get_by_natural_key] matters. *)
Record Manager : Type := mkManager {
  has_get_by_natural_key : bool
}.

(** A concrete model class deriving from [SyncModelMixin].
  - [has_natural_key]: the class defines [natural_key];
  - [objects]: the manager bound to the name [objects], if any;
  - [is_audit_trail]: the class is the audit-trail counterpart of
    another model (the mixin never reads this; it is here so that
    statements can tell the two kinds of models apart);
  - the two [_override] fields are the subclass's own definition of the
    overridable method, [None] when the mixin's default is inherited. *)
Record ModelClass : Type := mkModelClass {
  app_label : string;
  model_name : string;
  object_name : string;
  has_natural_key : bool;
  objects : option Manager;
  is_audit_trail : bool;
  skip_saving_criteria_override : option (Fields -> PyVal);
  deserialize_on_duplicate_override : option (Fields -> PyVal)
}.

Record Instance : Type := mkInstance {
  class_of : ModelClass;
  id : string;
  fields : Fields
}.

(** ** The wall clock and the timestamp format *)

(** A [datetime.datetime] as [timezone.now()] returns it, by its
    fields. *)
Record datetime : Type := mkDatetime {
  year : N;
  month : N;
  day : N;
  hour : N;
  minute : N;
  second : N;
  microsecond : N
}.

(** The field ranges of a [datetime] whose year prints on four digits.
    Python's constructor enforces the ranges of the other fields;
    [strftime('%Y')] is four digits wide from the year 1000 on, and
    [MAXYEAR] is 9999. *)
Definition valid_datetime (t : datetime) : bool :=
  (1000 <=? year t)%N && (year t <=? 9999)%N
  && (1 <=? month t)%N && (month t <=? 12)%N
  && (1 <=? day t)%N && (day t <=? 31)%N
  && (hour t <? 24)%N && (minute t <? 60)%N && (second t <? 60)%N
  && (microsecond t <? 1000000)%N.

(** The decimal digit [d] as a character. *)
Definition digit (d : N) : ascii := ascii_of_N (48 + d).

(** [n] printed on [width] decimal digits with leading zeros, as the
    fixed-width directives of [strftime] print a field that fits. *)
Fixpoint zfill (width : nat) (n : N) : string :=
  match width with
  | O => EmptyString
  | S w => String (digit ((n / 10 ^ N.of_nat w) mod 10)) (zfill w n)
  end.

(** [t.strftime('%Y%m%d%H%M%S%f')] *)
Definition strftime (t : datetime) : string :=
  zfill 4 (year t) ++ zfill 2 (month t) ++ zfill 2 (day t)
    ++ zfill 2 (hour t) ++ zfill 2 (minute t) ++ zfill 2 (second t)
    ++ zfill 6 (microsecond t).

(** The value of a decimal digit character, [None] for any other. *)
Definition digit_value (c : ascii) : option N :=
  let n := N_of_ascii c in
  if (48 <=? n)%N && (n <=? 57)%N then Some (n - 48)%N else None.

Fixpoint int_acc (acc : N) (s : string) : option N :=
  match s with
  | EmptyString => Some acc
  | String c s' =>
      match digit_value c with
      | Some d => int_acc (10 * acc + d)%N s'
      | None => None
      end
  end.

(** Python's [int(s)] on a string of decimal digits; [None] is the
    [ValueError] of an empty string or of a character that is no digit. *)
Definition int (s : string) : option N :=
  match s with
  | EmptyString => None
  | _ => int_acc 0 s
  end.

(** The number a string of decimal digits denotes, most significant
    digit first. *)
Fixpoint digits_value (s : string) : N :=
  match s with
  | EmptyString => 0
  | String c s' =>
      ((N_of_ascii c - 48) * 10 ^ N.of_nat (String.length s') + digits_value s')%N
  end.

Fixpoint all_digits (s : string) : bool :=
  match s with
  | EmptyString => true
  | String c s' =>
      match digit_value c with Some _ => all_digits s' | None => false end
  end.

(** The number the timestamp of [t] reads as: the fields of [t] in the
    order and on the widths of the format. *)
Definition timestamp_value (t : datetime) : N :=
  ((((((year t * 100 + month t) * 100 + day t) * 100 + hour t) * 100
      + minute t) * 100 + second t) * 1000000 + microsecond t)%N.

(** Comparison of two datetimes: field by field, the year first. *)
Definition datetime_compare (a b : datetime) : comparison :=
  match (year a ?= year b)%N with
  | Eq =>
    match (month a ?= month b)%N with
    | Eq =>
      match (day a ?= day b)%N with
      | Eq =>
        match (hour a ?= hour b)%N with
        | Eq =>
          match (minute a ?= minute b)%N with
          | Eq =>
            match (second a ?= second b)%N with
            | Eq => (microsecond a ?= microsecond b)%N
            | c => c
            end
          | c => c
          end
        | c => c
        end
      | c => c
      end
    | c => c
    end
  | c => c
  end.

(** ** Tables, the world and the environment *)

(** Modelled from the spec: the [Producer] record (its model class is
    not among the source files).  The fields are those [sync_producer]
    passes to [create]; per the specification a producer's name is
    unique in its database, so a table is a map from names. *)
Record Producer : Type := mkProducer {
  name : string;
  url : string;
  is_active : bool;
  settings_key : string
}.

(** Modelled from the spec: the [OutgoingTransaction] record, by the
    keyword arguments [to_outgoing_transaction] passes to [create]
    ([tx_using] is the keyword [using]). *)
Record OutgoingTransaction : Type := mkOutgoingTransaction {
  tx_name : string;
  tx_pk : string;
  tx : string;
  timestamp : string;
  producer : string;
  action : string;
  tx_using : string
}.

(** The databases, by alias: for each one the rows of its
    [OutgoingTransaction] table in insertion order, its [Producer]
    table, and the saved model instances; [clock_reads] counts the calls
    of [timezone.now()] made so far. *)
Record World : Type := mkWorld {
  outgoing : gmap string (list OutgoingTransaction);
  producers : gmap string (gmap string Producer);
  entities : gmap string (list Instance);
  clock_reads : nat
}.

Definition empty_world : World := mkWorld ∅ ∅ ∅ 0.

(** What the mixin reads from outside the databases:
    - [hostname]: the result of [socket.gethostname()];
    - [settings]: the Django settings;
    - [wall_clock]: what the i-th call of [timezone.now()] returns;
    - [serialize], [encrypt]: the JSON serializer and the field cryptor;
    - [concurrent_writer]: what other connections do to the [Producer]
      table of a database between this connection's failed lookup and
      its insert. *)
Record Env : Type := mkEnv {
  hostname : string;
  settings : Settings;
  wall_clock : nat -> datetime;
  serialize : Instance -> string;
  encrypt : string -> string;
  concurrent_writer : string -> gmap string Producer -> gmap string Producer
}.

(** A computation on the world that returns or raises. *)
Definition M (A : Type) : Type := World -> Result A * World.

Definition ret {A} (a : A) : M A := fun w => (Ok a, w).

Definition raise {A} (e : Exn) : M A := fun w => (Raise e, w).

Definition bind {A B} (m : M A) (k : A -> M B) : M B :=
  fun w =>
    match m w with
    | (Ok a, w') => k a w'
    | (Raise e, w') => (Raise e, w')
    end.

Notation "x <- m ;; k" := (bind m (fun x => k))
  (at level 100, m at level 99, right associativity).

(** The rows of a table of database [db]. *)
Definition outgoing_of (db : string) (w : World) : list OutgoingTransaction :=
  default [] (outgoing w !! db).

Definition producers_of (db : string) (w : World) : gmap string Producer :=
  default ∅ (producers w !! db).

Definition entities_of (db : string) (w : World) : list Instance :=
  default [] (entities w !! db).

(** [timezone.now()]: the next reading of the wall clock. *)
Definition timezone_now (env : Env) : M datetime :=
  fun w =>
    (Ok (wall_clock env (clock_reads w)),
     mkWorld (outgoing w) (producers w) (entities w) (S (clock_reads w))).

(** [Producer.objects.using(db).get(name=n)] *)
Definition Producer_get (db n : string) : M Producer :=
  fun w =>
    match producers_of db w !! n with
    | Some p => (Ok p, w)
    | None => (Raise DoesNotExist, w)
    end.

(** [Producer.objects.using(db).create(...)] inside [transaction.atomic]:
    the insert violates the uniqueness of the name when a producer of
    that name is there, and then changes nothing. *)
Definition Producer_create (db : string) (p : Producer) : M Producer :=
  fun w =>
    match producers_of db w !! name p with
    | Some _ => (Raise IntegrityError, w)
    | None =>
        (Ok p,
         mkWorld (outgoing w)
                 (<[db := <[name p := p]> (producers_of db w)]> (producers w))
                 (entities w) (clock_reads w))
    end.

(** The other connections' writes to the [Producer] table of [db]. *)
Definition concurrent_writes (env : Env) (db : string) : M unit :=
  fun w =>
    (Ok tt,
     mkWorld (outgoing w)
             (<[db := concurrent_writer env db (producers_of db w)]> (producers w))
             (entities w) (clock_reads w)).

(** [OutgoingTransaction.objects.using(db).create(...)]: one more row. *)
Definition OutgoingTransaction_create (db : string) (t : OutgoingTransaction)
  : M OutgoingTransaction :=
  fun w =>
    (Ok t,
     mkWorld (<[db := (outgoing_of db w ++ [t])%list]> (outgoing w))
             (producers w) (entities w) (clock_reads w)).

(** ** The mixin's methods *)

Module SyncModelMixin.

(** ['Model {}.{} is missing method natural_key '.format(...)] *)
Definition missing_natural_key_msg (c : ModelClass) : string :=
  "Model " ++ app_label c ++ "." ++ model_name c
    ++ " is missing method natural_key ".

(** ['Model {}.{} is missing manager method get_by_natural_key '.format(...)] *)
Definition missing_get_by_natural_key_msg (c : ModelClass) : string :=
  "Model " ++ app_label c ++ "." ++ model_name c
    ++ " is missing manager method get_by_natural_key ".

(** [self.__class__.objects.get_by_natural_key] evaluates without
    [AttributeError]: the class has an [objects] manager and that
    manager has the method. *)
Definition manager_has_lookup (c : ModelClass) : bool :=
  match objects c with
  | Some m => has_get_by_natural_key m
  | None => false
  end.

(** [SyncModelMixin.__init__]: the two capability checks, in the
    source's order, then the base constructor, which builds the
    instance from the keyword arguments. *)
Definition init (c : ModelClass) (pk : string) (kwargs : Fields)
  : Result Instance :=
  if negb (has_natural_key c) then
    Raise (SyncError (missing_natural_key_msg c))
  else if negb (manager_has_lookup c) then
    Raise (SyncError (missing_get_by_natural_key_msg c))
  else Ok (mkInstance c pk kwargs).

(** [SyncModelMixin.is_serialized].  The method takes [self] and does
    not look at it. *)
Definition is_serialized (settings : Settings) (self : Instance) : bool :=
  let is_serialized :=
    match ALLOW_MODEL_SERIALIZATION settings with
    | Some v => v
    | None => true
    end in
  if is_serialized then
    match ALLOW_AUDIT_TRAIL_MODEL_SERIALIZATION settings with
    | Some v => v
    | None => true
    end
  else is_serialized.

(** The body of the mixin's [skip_saving_criteria] is the expression
    statement [False]; the method has no [return], so a call yields
    [None]. *)
Definition default_skip_saving_criteria (self : Instance) : PyVal :=
  PyNone.

(** The mixin's [deserialize_on_duplicate]: [return True]. *)
Definition default_deserialize_on_duplicate (self : Instance) : PyVal :=
  PyBool true.

(** Method resolution: the subclass's definition when there is one,
    the mixin's otherwise. *)
Definition skip_saving_criteria (self : Instance) : PyVal :=
  match skip_saving_criteria_override (class_of self) with
  | Some f => f (fields self)
  | None => default_skip_saving_criteria self
  end.

Definition deserialize_on_duplicate (self : Instance) : PyVal :=
  match deserialize_on_duplicate_override (class_of self) with
  | Some f => f (fields self)
  | None => default_deserialize_on_duplicate self
  end.

(** [save_to_inspector]: [return False]. *)
Definition save_to_inspector (self : Instance) : PyVal := PyBool false.

(** [deserialize_get_missing_fk]: always raises. *)
Definition deserialize_get_missing_fk (self : Instance) (attrname : string)
  : Result Instance :=
  Raise (ImproperlyConfigured
           ("Method deserialize_get_missing_fk() must be overridden on model class "
              ++ object_name (class_of self))).

(** [try: m  except E: h]: [handler e] is the handler's body when the
    [except] clauses catch [e], [None] when [e] propagates. *)
Definition try_except {A} (m : M A) (handler : Exn -> option (M A)) : M A :=
  fun w =>
    match m w with
    | (Ok a, w') => (Ok a, w')
    | (Raise e, w') =>
        match handler e with
        | Some h => h w'
        | None => (Raise e, w')
        end
    end.

(** ['{}-{}'.format(hostname, using)] *)
Definition producer_name_of (host db : string) : string :=
  host ++ "-" ++ db.

(** The record [sync_producer] creates for database [db]:
    [name=producer_name], [url='http://{}/'.format(hostname)],
    [is_active=True], [settings_key=using]. *)
Definition new_producer (env : Env) (db : string) : Producer :=
  {| name := producer_name_of (hostname env) db;
     url := "http://" ++ hostname env ++ "/";
     is_active := true;
     settings_key := db |}.

(** [SyncModelMixin.sync_producer]; [db] is the source's [using] (a
    reserved word here).  The lookup's result is dropped;
    on [DoesNotExist] the producer is created, and an [IntegrityError]
    of that insert is passed over. *)
Definition sync_producer (env : Env) (self : Instance) (db : string)
  : M string :=
  let producer_name := producer_name_of (hostname env) db in
  _ <- try_except
         (_ <- Producer_get db producer_name ;; ret tt)
         (fun e =>
            match e with
            | DoesNotExist =>
                Some (try_except
                        (_ <- concurrent_writes env db ;;
                         _ <- Producer_create db (new_producer env db) ;;
                         ret tt)
                        (fun e' =>
                           match e' with
                           | IntegrityError => Some (ret tt)
                           | _ => None
                           end))
            | _ => None
            end) ;;
  ret producer_name.

(** [SyncModelMixin.encrypted_json] *)
Definition encrypted_json (env : Env) (self : Instance) : string :=
  encrypt env (serialize env self).

(** The action letter [to_outgoing_transaction] computes from its two
    optional arguments. *)
Definition action_of (created deleted : option bool) : string :=
  let created := match created with None => true | Some c => c end in
  let action := if created then "I" else "U" in
  if truthy_opt deleted then "D" else action.

(** [SyncModelMixin.to_outgoing_transaction].  The keyword arguments of
    [create] are evaluated in the order they are written: the snapshot,
    then the clock, then the producer. *)
Definition to_outgoing_transaction (env : Env) (self : Instance)
    (db : string) (created deleted : option bool)
  : M (option OutgoingTransaction) :=
  let action := action_of created deleted in
  if is_serialized (settings env) self then
    if String.eqb db "default" then
      raise (AssertionError (object_name (class_of self)))
    else
      let tx := encrypted_json env self in
      now <- timezone_now env ;;
      producer <- sync_producer env self db ;;
      outgoing_transaction <-
        OutgoingTransaction_create db
          {| tx_name := object_name (class_of self);
             tx_pk := id self;
             tx := tx;
             timestamp := strftime now;
             producer := producer;
             action := action;
             tx_using := db |} ;;
      ret (Some outgoing_transaction)
  else ret None.

End SyncModelMixin.

(** ** The save path *)

(** Modelled from the spec: the save hook (the signal receivers that call
    [to_outgoing_transaction] are not among the source files).  Section
    4.1: on every successful insert or update of an entity in a database
    other than the local default, if the entity does not opt out through
    its skip-saving predicate, one OutgoingTransaction is built, with
    action Insert on the first save and Update on the later ones; the
    serialization switches are those of [to_outgoing_transaction].  An
    instance that opts out is not persisted, as the docstring of
    [skip_saving_criteria] has it. *)
Definition Model_save (env : Env) (self : Instance) (db : string)
    (created : bool) : M (option OutgoingTransaction) :=
  if truthy (SyncModelMixin.skip_saving_criteria self) then ret None
  else
    fun w =>
      let w' := mkWorld (outgoing w) (producers w)
                  (<[db := (entities_of db w ++ [self])%list]> (entities w))
                  (clock_reads w) in
      if String.eqb db "default" then (Ok None, w')
      else SyncModelMixin.to_outgoing_transaction env self db (Some created) None w'.

(** [Model.objects.using(db).create(...)]: the constructor, then the
    first save; [pk] is the identifier the new instance gets. *)
Definition objects_create (env : Env) (c : ModelClass) (db pk : string)
    (kwargs : Fields) : M Instance :=
  fun w =>
    match SyncModelMixin.init c pk kwargs with
    | Raise e => (Raise e, w)
    | Ok obj => (_ <- Model_save env obj db true ;; ret obj) w
    end.

(** ** The consumer of incoming transactions *)

Module Consumer.

Inductive Action : Type := Insert | Update | Delete.

(** Modelled from the spec: the [IncomingTransaction] record (section 3):
    the fields of an outgoing transaction and [is_consumed]; [in_id] is
    the row's own key. *)
Record IncomingTransaction : Type := mkIncomingTransaction {
  in_id : nat;
  in_tx_name : string;
  in_tx_pk : string;
  in_tx : string;
  in_timestamp : string;
  in_producer : string;
  in_action : Action;
  is_consumed : bool
}.

Inductive ConsumerError : Type := AuthorizationError.

Inductive RowError : Type := DecryptionError | UnresolvedReferenceError.

(** The calls the consumer makes to its collaborators, by row. *)
Inductive Event : Type :=
| EvDecrypt (row : nat)
| EvLookup (row : nat).

Record Counts : Type := mkCounts {
  inserted : nat;
  updated : nat;
  deleted : nat
}.

Inductive CountKind : Type := Inserted | Updated | Deleted.

(** What a duplicate-resolution policy tells the consumer. *)
Inductive Signal : Type := Overwrite | Skip.

(** The signal of a value returned by [deserialize_on_duplicate], by the
    method's docstring: on [False] the object is not saved and the
    transaction is flagged as consumed without error. *)
Definition duplicate_signal (v : PyVal) : Signal :=
  if truthy v then Overwrite else Skip.

(** The consumer's collaborators:
    - [restore]: decrypt a payload and restore the entity it holds,
      [None] when either step fails;
    - [natural_key]: the natural key of an entity;
    - [resolve_references]: the entity with its references to other
      entities resolved against the store (the resolver hook included),
      [None] when a reference stays unresolved;
    - [overwrite_count]: how an overwriting duplicate is counted. *)
Record Collaborators : Type := mkCollaborators {
  restore : string -> option Instance;
  natural_key : Instance -> string;
  resolve_references : Instance -> list Instance -> option Instance;
  overwrite_count : Instance -> CountKind
}.

Record State : Type := mkState {
  rows : list IncomingTransaction;
  store : list Instance;
  results : list (string * Counts);
  errors : list (nat * RowError);
  trace : list Event
}.

Definition same_type (a b : Instance) : bool :=
  String.eqb (object_name (class_of a)) (object_name (class_of b)).

Definition same_entity (col : Collaborators) (a b : Instance) : bool :=
  same_type a b && String.eqb (natural_key col a) (natural_key col b).

Definition has_id (tx_name pk : string) (e : Instance) : bool :=
  String.eqb (object_name (class_of e)) tx_name && String.eqb (id e) pk.

Definition bump (k : CountKind) (c : Counts) : Counts :=
  match k with
  | Inserted => mkCounts (S (inserted c)) (updated c) (deleted c)
  | Updated => mkCounts (inserted c) (S (updated c)) (deleted c)
  | Deleted => mkCounts (inserted c) (updated c) (S (deleted c))
  end.

(** One more [k] for [tx_name]; a first entry for a name not seen yet. *)
Fixpoint count (k : CountKind) (tx_name : string) (rs : list (string * Counts))
  : list (string * Counts) :=
  match rs with
  | [] => [(tx_name, bump k (mkCounts 0 0 0))]
  | (n, c) :: rs' =>
      if String.eqb n tx_name then (n, bump k c) :: rs'
      else (n, c) :: count k tx_name rs'
  end.

(** A result entry for [tx_name], with no count added. *)
Fixpoint touch (tx_name : string) (rs : list (string * Counts))
  : list (string * Counts) :=
  match rs with
  | [] => [(tx_name, mkCounts 0 0 0)]
  | (n, c) :: rs' =>
      if String.eqb n tx_name then rs else (n, c) :: touch tx_name rs'
  end.

Definition mark_consumed (i : nat) (rs : list IncomingTransaction)
  : list IncomingTransaction :=
  map (fun r =>
         if Nat.eqb (in_id r) i then
           mkIncomingTransaction (in_id r) (in_tx_name r) (in_tx_pk r) (in_tx r)
             (in_timestamp r) (in_producer r) (in_action r) true
         else r) rs.

(** Replace the stored entity [obj] stands for. *)
Definition overwrite (col : Collaborators) (obj : Instance) (st : list Instance)
  : list Instance :=
  map (fun e => if same_entity col obj e then obj else e) st.

(** Insertion of a row into a list sorted by timestamp, after the rows
    of the same timestamp. *)
Fixpoint insert_by_timestamp (r : IncomingTransaction)
    (rs : list IncomingTransaction) : list IncomingTransaction :=
  match rs with
  | [] => [r]
  | r' :: rs' =>
      if String.ltb (in_timestamp r) (in_timestamp r')
      then r :: r' :: rs'
      else r' :: insert_by_timestamp r rs'
  end.

(** The consumer's input: the rows not yet consumed, by ascending
    timestamp. *)
Definition pending (rs : list IncomingTransaction) : list IncomingTransaction :=
  fold_left (fun acc r => insert_by_timestamp r acc)
            (filter (fun r => negb (is_consumed r)) rs) [].

(** A row that fails stays unconsumed; its error is recorded. *)
Definition fail_row (r : IncomingTransaction) (e : RowError) (tr : list Event)
    (st : State) : State :=
  mkState (rows st) (store st) (touch (in_tx_name r) (results st))
          (errors st ++ [(in_id r, e)])%list tr.

(** A row that succeeds is marked consumed. *)
Definition succeed_row (r : IncomingTransaction) (store' : list Instance)
    (results' : list (string * Counts)) (tr : list Event) (st : State) : State :=
  mkState (mark_consumed (in_id r) (rows st)) store' results' (errors st) tr.

(** Write [obj], once its references are resolved, with [write]. *)
Definition write_resolved (col : Collaborators) (r : IncomingTransaction)
    (obj : Instance) (k : CountKind) (tr : list Event) (st : State)
    (write : Instance -> list Instance) : State :=
  match resolve_references col obj (store st) with
  | None => fail_row r UnresolvedReferenceError tr st
  | Some obj' =>
      succeed_row r (write obj') (count k (in_tx_name r) (results st)) tr st
  end.

(** Modelled from the spec: an Insert whose target is present (section
    4.5, step 3): the entity's duplicate policy is consulted; on
    overwrite the fields are applied, on skip nothing changes, no error
    is recorded and the row is still marked consumed. *)
Definition on_duplicate_insert (col : Collaborators) (r : IncomingTransaction)
    (obj : Instance) (tr : list Event) (st : State) : State :=
  match duplicate_signal (SyncModelMixin.deserialize_on_duplicate obj) with
  | Overwrite =>
      write_resolved col r obj (overwrite_count col obj) tr st
        (fun obj' => overwrite col obj' (store st))
  | Skip =>
      succeed_row r (store st) (touch (in_tx_name r) (results st)) tr st
  end.

(** Modelled from the spec: one row of the consumer's loop (section 4.5,
    steps 1 to 5): decrypt and restore, resolve the target (by natural
    key for Insert and Update, by the recorded identifier for Delete),
    apply, and mark the row consumed when it succeeded. *)
Definition apply_row (col : Collaborators) (st : State)
    (r : IncomingTransaction) : State :=
  let tr := (trace st ++ [EvDecrypt (in_id r)])%list in
  match restore col (in_tx r) with
  | None => fail_row r DecryptionError tr st
  | Some obj =>
      let tr := (tr ++ [EvLookup (in_id r)])%list in
      match in_action r with
      | Insert =>
          match find (same_entity col obj) (store st) with
          | None =>
              write_resolved col r obj Inserted tr st
                (fun obj' => (store st ++ [obj'])%list)
          | Some _ => on_duplicate_insert col r obj tr st
          end
      | Update =>
          match find (same_entity col obj) (store st) with
          | Some _ =>
              write_resolved col r obj Updated tr st
                (fun obj' => overwrite col obj' (store st))
          | None =>
              write_resolved col r obj Inserted tr st
                (fun obj' => (store st ++ [obj'])%list)
          end
      | Delete =>
          match find (has_id (in_tx_name r) (in_tx_pk r)) (store st) with
          | Some _ =>
              succeed_row r
                (filter (fun e => negb (has_id (in_tx_name r) (in_tx_pk r) e))
                        (store st))
                (count Deleted (in_tx_name r) (results st)) tr st
          | None =>
              succeed_row r (store st) (touch (in_tx_name r) (results st)) tr st
          end
      end
  end.

(** Modelled from the spec: the consumer (section 4.5).  The role gate
    comes first; past it the pending rows are applied one at a time, and
    the batch's results are the counts by [tx_name].  The state a call
    starts from has the results and the trace of that call empty. *)
Definition consume (col : Collaborators) (is_server : bool) (st : State)
  : (ConsumerError + list (string * Counts)) * State :=
  if negb is_server then (inl AuthorizationError, st)
  else
    let st' := fold_left (apply_row col) (pending (rows st)) st in
    (inr (results st'), st').

End Consumer.

(** ** Successive calls *)

(** The arguments of one call of [to_outgoing_transaction], the database
    apart. *)
Record Call : Type := mkCall {
  call_self : Instance;
  call_created : option bool;
  call_deleted : option bool
}.

(** The calls of [calls] made one after the other for database [db],
    each from the world the one before left; the world after the last. *)
Fixpoint replay (env : Env) (db : string) (calls : list Call) (w : World)
  : World :=
  match calls with
  | [] => w
  | c :: calls' =>
      replay env db calls'
        (snd (SyncModelMixin.to_outgoing_transaction env (call_self c) db
                (call_created c) (call_deleted c) w))
  end.

(** ** Models, settings and environments of the test suite *)

(** [TestModel]: natural key and lookup both defined. *)
Definition TestModel : ModelClass :=
  {| app_label := "edc_sync"; model_name := "testmodel";
     object_name := "TestModel";
     has_natural_key := true; objects := Some (mkManager true);
     is_audit_trail := false;
     skip_saving_criteria_override := None;
     deserialize_on_duplicate_override := None |}.

(** [BadTestModel]: "missing natural_key and get_by_natural_key". *)
Definition BadTestModel : ModelClass :=
  {| app_label := "edc_sync"; model_name := "badtestmodel";
     object_name := "BadTestModel";
     has_natural_key := false; objects := Some (mkManager false);
     is_audit_trail := false;
     skip_saving_criteria_override := None;
     deserialize_on_duplicate_override := None |}.

(** [AnotherBadTestModel]: "missing get_by_natural_key". *)
Definition AnotherBadTestModel : ModelClass :=
  {| app_label := "edc_sync"; model_name := "anotherbadtestmodel";
     object_name := "AnotherBadTestModel";
     has_natural_key := true; objects := Some (mkManager false);
     is_audit_trail := false;
     skip_saving_criteria_override := None;
     deserialize_on_duplicate_override := None |}.

(** [TestModel.objects.using('client').create(f1='erik')], constructed. *)
Definition erik : Instance := mkInstance TestModel "pk-erik" [("f1", "erik")].

Definition noon : datetime := mkDatetime 2015 10 5 12 0 0 0.

Definition just_after_noon : datetime := mkDatetime 2015 10 5 12 0 0 1.

(** A host whose clock advances by one microsecond per reading and on
    which no other connection writes. *)
Definition quiet_env (s : Settings) : Env :=
  {| hostname := "mpp";
     settings := s;
     wall_clock := fun i => mkDatetime 2015 10 5 12 0 0 (N.of_nat i);
     serialize := fun o => "json:" ++ id o;
     encrypt := fun s => "aes:" ++ s;
     concurrent_writer := fun _ t => t |}.


(** The same host when another connection registers the producer of
    database [client] between the lookup and the insert. *)
Definition racing_env : Env :=
  {| hostname := "mpp";
     settings := default_settings;
     wall_clock := fun _ => noon;
     serialize := fun o => "json:" ++ id o;
     encrypt := fun s => "aes:" ++ s;
     concurrent_writer := fun _ t =>
       <["mpp-client" := mkProducer "mpp-client" "http://mpp/" true "client"]> t |}.

(** [is_serialized] as its docstring and the specification describe it:
    the global switch, and the audit-record switch for audit-trail
    instances only. *)
Definition is_serialized_documented (s : Settings) (self : Instance) : bool :=
  default true (ALLOW_MODEL_SERIALIZATION s)
  && (if is_audit_trail (class_of self)
      then default true (ALLOW_AUDIT_TRAIL_MODEL_SERIALIZATION s)
      else true).

(** A model whose [deserialize_on_duplicate] is overridden to return
    [False]. *)
Definition SkippingModel : ModelClass :=
  {| app_label := "edc_sync"; model_name := "skippingmodel";
     object_name := "SkippingModel";
     has_natural_key := true; objects := Some (mkManager true);
     is_audit_trail := false;
     skip_saving_criteria_override := None;
     deserialize_on_duplicate_override := Some (fun _ => PyBool false) |}.

(** Collaborators for a server that holds [erik]: a payload restores to
    a [TestModel] whose [f1] is [erik] and whose [f2] is the payload; the
    natural key is the value of the first field, as [TestModel]'s
    [natural_key] returns [(self.f1, )]; references always resolve. *)
Definition erik_collaborators : Consumer.Collaborators :=
  {| Consumer.restore := fun payload =>
       Some (mkInstance TestModel "pk-incoming" [("f1", "erik"); ("f2", payload)]);
     Consumer.natural_key := fun o =>
       match fields o with
       | (_, v) :: _ => v
       | [] => EmptyString
       end;
     Consumer.resolve_references := fun o _ => Some o;
     Consumer.overwrite_count := fun _ => Consumer.Updated |}.

(** One pending Insert that duplicates the stored [erik]. *)
Definition duplicate_insert : Consumer.IncomingTransaction :=
  {| Consumer.in_id := 1; Consumer.in_tx_name := "TestModel";
     Consumer.in_tx_pk := "pk-erik"; Consumer.in_tx := "again";
     Consumer.in_timestamp := "20151005120000000000";
     Consumer.in_producer := "mpp-client";
     Consumer.in_action := Consumer.Insert;
     Consumer.is_consumed := false |}.

Definition server_with_erik : Consumer.State :=
  {| Consumer.rows := [duplicate_insert];
     Consumer.store := [erik];
     Consumer.results := [];
     Consumer.errors := [];
     Consumer.trace := [] |}.

(** The same server for a model that skips its duplicates. *)
Definition skipping_collaborators : Consumer.Collaborators :=
  {| Consumer.restore := fun payload =>
       Some (mkInstance SkippingModel "pk-incoming" [("f1", "erik"); ("f2", payload)]);
     Consumer.natural_key := Consumer.natural_key erik_collaborators;
     Consumer.resolve_references := fun o _ => Some o;
     Consumer.overwrite_count := fun _ => Consumer.Updated |}.

Definition server_with_skipper : Consumer.State :=
  {| Consumer.rows := [duplicate_insert];
     Consumer.store := [mkInstance SkippingModel "pk-erik" [("f1", "erik")]];
     Consumer.results := [];
     Consumer.errors := [];
     Consumer.trace := [] |}.

(** * Properties *)

Import SyncModelMixin.

(** ** The serialization switches *)

(** What the method computes: the conjunction of the two switches, for
    every instance. *)
Lemma is_serialized_both_switches (s : Settings) (self : Instance) :
  is_serialized s self
  = default true (ALLOW_MODEL_SERIALIZATION s)
    && default true (ALLOW_AUDIT_TRAIL_MODEL_SERIALIZATION s).
Proof.
  unfold is_serialized.
  destruct (ALLOW_MODEL_SERIALIZATION s) as [[]|];
    destruct (ALLOW_AUDIT_TRAIL_MODEL_SERIALIZATION s) as [[]|]; reflexivity.
Qed.

Lemma is_serialized_global_off (s : Settings) (self : Instance) :
  ALLOW_MODEL_SERIALIZATION s = Some false -> is_serialized s self = false.
Proof. intros H. unfold is_serialized. rewrite H. reflexivity. Qed.

(** C1: with the global switch on and the audit-record switch off,
    [is_serialized] is false for [erik], an instance of a model that is
    not an audit-trail model, where the documented behaviour is true:
    the audit-record switch disables every model. *)
Theorem is_serialized_audit_switch_hits_plain_models :
  is_audit_trail (class_of erik) = false
  /\ is_serialized (mkSettings (Some true) (Some false)) erik = false
  /\ is_serialized_documented (mkSettings (Some true) (Some false)) erik = true
  /\ (forall self : Instance,
        is_serialized (mkSettings (Some true) (Some false)) self = false).
Proof. repeat split. Qed.

(** ** The skip-saving predicate *)

(** Every value the default predicate returns is false in a test. *)
Lemma default_skip_saving_criteria_falsy (self : Instance) :
  truthy (default_skip_saving_criteria self) = false.
Proof. reflexivity. Qed.

(** C6: the mixin's own [skip_saving_criteria] returns [None], not
    [False]. *)
Theorem default_skip_saving_criteria_returns_None (self : Instance) :
  default_skip_saving_criteria self = PyNone
  /\ default_skip_saving_criteria self <> PyBool false
  /\ skip_saving_criteria erik = PyNone.
Proof. repeat split. discriminate. Qed.

(** An instance whose predicate holds is not saved and writes no
    transaction. *)
Lemma Model_save_opt_out
    (env : Env) (self : Instance) (db : string) (created : bool) (w : World) :
  truthy (skip_saving_criteria self) = true ->
  Model_save env self db created w = (Ok None, w).
Proof. intros H. unfold Model_save. rewrite H. reflexivity. Qed.

(** With the mixin's predicate the first save of [erik] in [client]
    persists it and writes its Insert. *)
Example Model_save_erik :
  let (r, w) := Model_save (quiet_env default_settings) erik "client" true
                  empty_world in
  r = Ok (Some {| tx_name := "TestModel"; tx_pk := "pk-erik";
                  tx := "aes:json:pk-erik";
                  timestamp := "20151005120000000000";
                  producer := "mpp-client"; action := "I";
                  tx_using := "client" |})
  /\ entities_of "client" w = [erik]
  /\ length (outgoing_of "client" w) = 1.
Proof. vm_compute. repeat split. Qed.

(** ** Construction *)

(** The two bad models of the test suite: each constructor raises, and
    the message names the method the test looks for. *)
Example init_bad_test_models :
  init BadTestModel "pk" []
    = Raise (SyncError "Model edc_sync.badtestmodel is missing method natural_key ")
  /\ init AnotherBadTestModel "pk" []
    = Raise (SyncError
               "Model edc_sync.anotherbadtestmodel is missing manager method get_by_natural_key ").
Proof. split; reflexivity. Qed.

(** C4: a class that lacks [natural_key] or whose [objects] manager lacks
    [get_by_natural_key] cannot be instantiated: the constructor raises
    [SyncError], naming the first missing method, and a [create] built on
    it leaves every table as it was; a class with both constructs the
    instance. *)
Theorem init_checks_natural_key_capabilities
    (env : Env) (c : ModelClass) (db pk : string) (kwargs : Fields) (w : World) :
  (has_natural_key c && manager_has_lookup c = false ->
     let msg := if has_natural_key c then missing_get_by_natural_key_msg c
                else missing_natural_key_msg c in
     init c pk kwargs = Raise (SyncError msg)
     /\ objects_create env c db pk kwargs w = (Raise (SyncError msg), w))
  /\ (has_natural_key c && manager_has_lookup c = true ->
     init c pk kwargs = Ok (mkInstance c pk kwargs)).
Proof.
  unfold objects_create, init.
  destruct (has_natural_key c), (manager_has_lookup c); simpl;
    split; intros H; try discriminate H; auto.
Qed.

Lemma init_checks_natural_key_capabilities_witness :
  (has_natural_key BadTestModel && manager_has_lookup BadTestModel = false)
  /\ init BadTestModel "pk" [] = Raise (SyncError (missing_natural_key_msg BadTestModel))
  /\ objects_create (quiet_env default_settings) BadTestModel "client" "pk" [] empty_world
     = (Raise (SyncError (missing_natural_key_msg BadTestModel)), empty_world).
Proof.
  split; [reflexivity|].
  apply (proj1 (init_checks_natural_key_capabilities
                  (quiet_env default_settings) BadTestModel "client" "pk" []
                  empty_world)).
  reflexivity.
Defined.

(** ** Writing an outgoing transaction *)

(** C8: with [ALLOW_MODEL_SERIALIZATION = False] the method returns
    [None] and changes nothing, whatever the instance, the database and
    the two flags. *)
Theorem to_outgoing_transaction_global_switch_off
    (env : Env) (self : Instance) (db : string) (created deleted : option bool)
    (w : World) :
  ALLOW_MODEL_SERIALIZATION (settings env) = Some false ->
  to_outgoing_transaction env self db created deleted w = (Ok None, w).
Proof.
  intros H. unfold to_outgoing_transaction.
  rewrite (is_serialized_global_off _ self H). reflexivity.
Qed.

Lemma to_outgoing_transaction_global_switch_off_witness :
  ALLOW_MODEL_SERIALIZATION (settings (quiet_env (mkSettings (Some false) None)))
    = Some false
  /\ to_outgoing_transaction (quiet_env (mkSettings (Some false) None)) erik
       "client" None None empty_world = (Ok None, empty_world).
Proof.
  split; [reflexivity|].
  apply (to_outgoing_transaction_global_switch_off
           (quiet_env (mkSettings (Some false) None)) erik "client" None None
           empty_world).
  reflexivity.
Defined.

(** On the default database the method either raises or returns [None];
    in both cases the world is the one it started from. *)
Lemma to_outgoing_transaction_default_db_no_write
    (env : Env) (self : Instance) (created deleted : option bool) (w : World) :
  snd (to_outgoing_transaction env self "default" created deleted w) = w.
Proof.
  unfold to_outgoing_transaction.
  destruct (is_serialized (settings env) self); reflexivity.
Qed.

(** C10: with serialization enabled, a call for the database [default]
    raises [AssertionError] (with the model's object name) and leaves the
    world untouched; hence a call that changes an [OutgoingTransaction]
    table was made for another database. *)
Theorem to_outgoing_transaction_asserts_not_default
    (env : Env) (self : Instance) (created deleted : option bool) (w : World) :
  is_serialized (settings env) self = true ->
  to_outgoing_transaction env self "default" created deleted w
    = (Raise (AssertionError (object_name (class_of self))), w)
  /\ (forall db, outgoing (snd (to_outgoing_transaction env self db created deleted w))
                 <> outgoing w -> db <> "default").
Proof.
  intros H. split.
  - unfold to_outgoing_transaction. rewrite H. reflexivity.
  - intros db Hw ->. apply Hw.
    rewrite to_outgoing_transaction_default_db_no_write. reflexivity.
Qed.

Lemma to_outgoing_transaction_asserts_not_default_witness :
  is_serialized (settings (quiet_env default_settings)) erik = true
  /\ to_outgoing_transaction (quiet_env default_settings) erik "default"
       (Some true) None empty_world
     = (Raise (AssertionError "TestModel"), empty_world).
Proof.
  split; [reflexivity|].
  apply (proj1 (to_outgoing_transaction_asserts_not_default
                  (quiet_env default_settings) erik (Some true) None empty_world
                  eq_refl)).
Defined.

(** ** The producer registry *)

Lemma producers_of_concurrent_writes (env : Env) (db : string) (w : World) :
  producers_of db (snd (concurrent_writes env db w))
  = concurrent_writer env db (producers_of db w).
Proof.
  unfold concurrent_writes, producers_of at 1. simpl.
  rewrite lookup_insert_eq. reflexivity.
Qed.

(** A lookup that finds the producer ends the call. *)
Lemma sync_producer_hit (env : Env) (self : Instance) (db : string) (w : World) :
  is_Some (producers_of db w !! producer_name_of (hostname env) db) ->
  sync_producer env self db w = (Ok (producer_name_of (hostname env) db), w).
Proof.
  intros [p Hp]. unfold sync_producer, bind, try_except, Producer_get.
  rewrite Hp. reflexivity.
Qed.

(** A lookup that misses and an insert that collides: the error of the
    insert is dropped and the table is the concurrent writer's. *)
Lemma sync_producer_miss_race (env : Env) (self : Instance) (db : string)
    (w : World) :
  producers_of db w !! producer_name_of (hostname env) db = None ->
  is_Some (concurrent_writer env db (producers_of db w)
             !! producer_name_of (hostname env) db) ->
  sync_producer env self db w
  = (Ok (producer_name_of (hostname env) db), snd (concurrent_writes env db w)).
Proof.
  intros Hmiss [p Hp].
  pose proof (producers_of_concurrent_writes env db w) as Hw.
  unfold sync_producer, bind, try_except, Producer_get. rewrite Hmiss.
  unfold Producer_create. simpl name.
  destruct (concurrent_writes env db w) as [r w1] eqn:E.
  unfold concurrent_writes in E. injection E as <- <-.
  simpl in Hw. simpl. rewrite Hw, Hp. reflexivity.
Qed.

(** A lookup that misses and an insert that goes through. *)
Lemma sync_producer_miss_insert (env : Env) (self : Instance) (db : string)
    (w : World) :
  producers_of db w !! producer_name_of (hostname env) db = None ->
  concurrent_writer env db (producers_of db w)
    !! producer_name_of (hostname env) db = None ->
  sync_producer env self db w
  = (Ok (producer_name_of (hostname env) db),
     mkWorld (outgoing w)
       (<[db := <[producer_name_of (hostname env) db := new_producer env db]>
                  (concurrent_writer env db (producers_of db w))]>
          (producers (snd (concurrent_writes env db w))))
       (entities w) (clock_reads w)).
Proof.
  intros Hmiss Hfree.
  pose proof (producers_of_concurrent_writes env db w) as Hw.
  unfold sync_producer, bind, try_except, Producer_get. rewrite Hmiss.
  unfold Producer_create. simpl name.
  destruct (concurrent_writes env db w) as [r w1] eqn:E.
  unfold concurrent_writes in E. injection E as <- <-.
  simpl in Hw. simpl. rewrite Hw, Hfree. reflexivity.
Qed.

(** In all three cases the call returns the name and touches only the
    [Producer] tables. *)
Lemma sync_producer_total (env : Env) (self : Instance) (db : string)
    (w : World) :
  exists w',
    sync_producer env self db w = (Ok (producer_name_of (hostname env) db), w')
    /\ outgoing w' = outgoing w
    /\ entities w' = entities w
    /\ clock_reads w' = clock_reads w.
Proof.
  destruct (producers_of db w !! producer_name_of (hostname env) db) eqn:Hget.
  - exists w. rewrite sync_producer_hit by (rewrite Hget; eauto). auto.
  - destruct (concurrent_writer env db (producers_of db w)
                !! producer_name_of (hostname env) db) eqn:Hc.
    + eexists. rewrite sync_producer_miss_race by (rewrite ?Hc; eauto).
      split; [reflexivity|]. simpl. auto.
    + eexists. rewrite sync_producer_miss_insert by assumption.
      split; [reflexivity|]. simpl. auto.
Qed.

(** C3: [sync_producer] returns the name [hostname-database] from every
    world and under every concurrent writer, and a producer of that name
    is registered when it returns.  When the lookup misses and a
    concurrent writer has registered the name first, the insert raises
    [IntegrityError]; the call drops it, returns the name all the same
    and leaves the table as the concurrent writer made it. *)
Theorem sync_producer_returns_canonical_name
    (env : Env) (self : Instance) (db : string) (w : World) :
  exists w',
    sync_producer env self db w = (Ok (hostname env ++ "-" ++ db), w')
    /\ is_Some (producers_of db w' !! (hostname env ++ "-" ++ db))
    /\ (producers_of db w !! (hostname env ++ "-" ++ db) = None ->
        is_Some (concurrent_writer env db (producers_of db w)
                   !! (hostname env ++ "-" ++ db)) ->
        Producer_create db (new_producer env db) (snd (concurrent_writes env db w))
          = (Raise IntegrityError, snd (concurrent_writes env db w))
        /\ w' = snd (concurrent_writes env db w)).
Proof.
  change (hostname env ++ "-" ++ db) with (producer_name_of (hostname env) db).
  destruct (producers_of db w !! producer_name_of (hostname env) db) eqn:Hget.
  - exists w. rewrite sync_producer_hit by (rewrite Hget; eauto).
    split; [reflexivity|]. split; [rewrite Hget; eauto|]. discriminate.
  - destruct (concurrent_writer env db (producers_of db w)
                !! producer_name_of (hostname env) db) eqn:Hc.
    + eexists. rewrite sync_producer_miss_race by (rewrite ?Hc; eauto).
      split; [reflexivity|]. rewrite producers_of_concurrent_writes, Hc.
      split; [eauto|]. intros _ _. split; [|reflexivity].
      unfold Producer_create. simpl name.
      rewrite producers_of_concurrent_writes, Hc. reflexivity.
    + eexists. rewrite sync_producer_miss_insert by assumption.
      split; [reflexivity|]. split.
      * unfold producers_of. simpl. rewrite lookup_insert_eq. simpl.
        rewrite lookup_insert_eq. eauto.
      * intros _ [p Hp]. discriminate Hp.
Qed.

Lemma sync_producer_returns_canonical_name_witness :
  sync_producer racing_env erik "client" empty_world
  = (Ok "mpp-client", snd (concurrent_writes racing_env "client" empty_world)).
Proof.
  destruct (sync_producer_returns_canonical_name racing_env erik "client" empty_world)
    as (w' & Hret & _ & Hrace).
  destruct Hrace as [_ Hw'].
  - reflexivity.
  - exists (mkProducer "mpp-client" "http://mpp/" true "client"). reflexivity.
  - rewrite <- Hw'. exact Hret.
Defined.





(** ** Timestamps *)

Lemma N_of_ascii_digit (d : N) : (d < 10)%N -> N_of_ascii (digit d) = (48 + d)%N.
Proof. intros H. unfold digit. apply N_ascii_embedding. lia. Qed.

Lemma digit_value_digit (d : N) : (d < 10)%N -> digit_value (digit d) = Some d.
Proof.
  intros H. unfold digit_value. rewrite N_of_ascii_digit by assumption.
  replace ((48 <=? 48 + d)%N) with true by (symmetry; apply N.leb_le; lia).
  replace ((48 + d <=? 57)%N) with true by (symmetry; apply N.leb_le; lia).
  simpl. f_equal. lia.
Qed.

Lemma digit_value_Some (c : ascii) (d : N) :
  digit_value c = Some d -> N_of_ascii c = (48 + d)%N /\ (d < 10)%N.
Proof.
  unfold digit_value.
  destruct (48 <=? N_of_ascii c)%N eqn:H1; [|discriminate].
  destruct (N_of_ascii c <=? 57)%N eqn:H2; [|discriminate].
  apply N.leb_le in H1, H2. simpl. intros [= <-]. lia.
Qed.

Lemma length_append (a b : string) :
  String.length (a ++ b) = String.length a + String.length b.
Proof. induction a as [|c a IH]; simpl; [reflexivity | now rewrite IH]. Qed.

Lemma all_digits_append (a b : string) :
  all_digits (a ++ b) = all_digits a && all_digits b.
Proof.
  induction a as [|c a IH]; simpl; [reflexivity|].
  destruct (digit_value c); [exact IH | reflexivity].
Qed.

Lemma digits_value_append (a b : string) :
  digits_value (a ++ b)
  = (digits_value a * 10 ^ N.of_nat (String.length b) + digits_value b)%N.
Proof.
  induction a as [|c a IH]; simpl; [reflexivity|].
  rewrite IH, length_append, Nat2N.inj_add, N.pow_add_r. lia.
Qed.


(** [int_acc] reads the digits after an accumulated prefix. *)
Lemma int_acc_digits (s : string) (acc : N) :
  all_digits s = true ->
  int_acc acc s = Some (acc * 10 ^ N.of_nat (String.length s) + digits_value s)%N.
Proof.
  revert acc. induction s as [|c s IH]; intros acc H.
  - simpl. f_equal. lia.
  - cbn [all_digits] in H.
    cbn [int_acc digits_value String.length].
    destruct (digit_value c) as [d|] eqn:Hd; [|discriminate]. rename H into Hs.
    apply digit_value_Some in Hd as [-> Hd]. rewrite (IH _ Hs).
    rewrite Nat2N.inj_succ, N.pow_succ_r'. f_equal. lia.
Qed.

Lemma int_digits (s : string) :
  s <> EmptyString -> all_digits s = true -> int s = Some (digits_value s).
Proof.
  intros Hne H. destruct s as [|c s]; [congruence|].
  unfold int. rewrite int_acc_digits by assumption. f_equal; lia.
Qed.


Lemma length_zfill (w : nat) (n : N) : String.length (zfill w n) = w.
Proof. induction w as [|w IH]; simpl; [reflexivity | now rewrite IH]. Qed.

Lemma all_digits_zfill (w : nat) (n : N) : all_digits (zfill w n) = true.
Proof.
  induction w as [|w IH]; simpl; [reflexivity|].
  rewrite digit_value_digit; [exact IH|]. apply N.mod_lt. discriminate.
Qed.

(** [zfill w n] denotes [n], up to the digits that do not fit. *)
Lemma digits_value_zfill (w : nat) (n : N) :
  digits_value (zfill w n) = (n mod 10 ^ N.of_nat w)%N.
Proof.
  induction w as [|w IH].
  - simpl. now rewrite N.mod_1_r.
  - cbn [zfill digits_value]. rewrite IH, length_zfill.
    rewrite N_of_ascii_digit by (apply N.mod_lt; discriminate).
    rewrite Nat2N.inj_succ, N.pow_succ_r', (N.mul_comm 10).
    rewrite N.Div0.mod_mul_r.
    clear IH. set (P := (10 ^ N.of_nat w)%N).
    set (q := ((n / P) mod 10)%N). set (r := (n mod P)%N). clearbody q r P.
    replace (48 + q - 48)%N with q by lia. lia.
Qed.

Lemma valid_datetime_bounds (t : datetime) :
  valid_datetime t = true ->
  (1000 <= year t <= 9999 /\ 1 <= month t <= 12 /\ 1 <= day t <= 31
   /\ hour t < 24 /\ minute t < 60 /\ second t < 60
   /\ microsecond t < 1000000)%N.
Proof.
  unfold valid_datetime. rewrite !andb_true_iff, !N.leb_le, !N.ltb_lt. lia.
Qed.

Lemma length_strftime (t : datetime) : String.length (strftime t) = 20.
Proof. unfold strftime. now rewrite !length_append, !length_zfill. Qed.

Lemma all_digits_strftime (t : datetime) : all_digits (strftime t) = true.
Proof. unfold strftime. now rewrite !all_digits_append, !all_digits_zfill. Qed.

Lemma strftime_nonempty (t : datetime) : strftime t <> EmptyString.
Proof. intros H. pose proof (length_strftime t) as L. rewrite H in L. discriminate. Qed.

(** The timestamp of a valid datetime reads as its fields in a row. *)
Lemma digits_value_strftime (t : datetime) :
  valid_datetime t = true -> digits_value (strftime t) = timestamp_value t.
Proof.
  intros H. apply valid_datetime_bounds in H.
  unfold strftime, timestamp_value.
  rewrite !digits_value_append, !length_append, !length_zfill, !digits_value_zfill.
  cbn [Nat.add N.of_nat Pos.of_succ_nat Pos.succ].
  rewrite !N.mod_small by (cbn; lia). cbn. lia.
Qed.

Lemma int_strftime (t : datetime) :
  valid_datetime t = true -> int (strftime t) = Some (timestamp_value t).
Proof.
  intros H. rewrite int_digits.
  - now rewrite digits_value_strftime.
  - apply strftime_nonempty.
  - apply all_digits_strftime.
Qed.

Ltac settle_compare :=
  first [ apply N.compare_eq_iff | apply N.compare_lt_iff | apply N.compare_gt_iff ];
  lia.

(** The numbers of two valid datetimes compare as the datetimes do. *)
Lemma timestamp_value_compare (a b : datetime) :
  valid_datetime a = true -> valid_datetime b = true ->
  (timestamp_value a ?= timestamp_value b)%N = datetime_compare a b.
Proof.
  intros Ha Hb. apply valid_datetime_bounds in Ha, Hb.
  unfold timestamp_value, datetime_compare.
  destruct (N.compare_spec (year a) (year b)); [|settle_compare..].
  destruct (N.compare_spec (month a) (month b)); [|settle_compare..].
  destruct (N.compare_spec (day a) (day b)); [|settle_compare..].
  destruct (N.compare_spec (hour a) (hour b)); [|settle_compare..].
  destruct (N.compare_spec (minute a) (minute b)); [|settle_compare..].
  destruct (N.compare_spec (second a) (second b)); [|settle_compare..].
  destruct (N.compare_spec (microsecond a) (microsecond b)); settle_compare.
Qed.


Example strftime_noon :
  strftime noon = "20151005120000000000"
  /\ int (strftime noon) = Some 20151005120000000000%N
  /\ String.ltb (strftime noon) (strftime just_after_noon) = true.
Proof. repeat split. Qed.





(** ** The consumer *)

Import Consumer.

(** On a server the consumer does decrypt, look up and consume: the
    duplicate of [erik] is applied and its row marked. *)
Example consume_on_server :
  let (r, st) := consume erik_collaborators true server_with_erik in
  r = inr [("TestModel", mkCounts 0 1 0)]
  /\ trace st = [EvDecrypt 1; EvLookup 1]
  /\ map is_consumed (rows st) = [true].
Proof. vm_compute. repeat split. Qed.

(** C9: on a node that is not a server the consumer fails with the
    authorization error and its state is the one it started from: no row
    is changed, so a row that was not consumed is not consumed, and no
    decryption and no lookup has been made. *)
Theorem consume_not_server_fails (col : Collaborators) (st : State) :
  consume col false st = (inl AuthorizationError, st)
  /\ rows (snd (consume col false st)) = rows st
  /\ trace (snd (consume col false st)) = trace st
  /\ (Forall (fun r => is_consumed r = false) (rows st) ->
      Forall (fun r => is_consumed r = false) (rows (snd (consume col false st)))).
Proof. repeat split. intros H; exact H. Qed.

Lemma consume_not_server_fails_witness :
  consume erik_collaborators false server_with_erik
    = (inl AuthorizationError, server_with_erik)
  /\ Forall (fun r => is_consumed r = false)
       (rows (snd (consume erik_collaborators false server_with_erik))).
Proof.
  destruct (consume_not_server_fails erik_collaborators server_with_erik)
    as (Hret & _ & _ & Hrows).
  split; [exact Hret|]. apply Hrows.
  repeat constructor.
Defined.

(** ** The duplicate policy *)






(** A model whose policy returns [False]: the duplicate is skipped, the
    stored entity stays, nothing is counted, no error is recorded and the
    row is consumed. *)
Example consume_skips_duplicate :
  let (r, st) := consume skipping_collaborators true server_with_skipper in
  r = inr [("TestModel", mkCounts 0 0 0)]
  /\ store st = store server_with_skipper
  /\ errors st = []
  /\ map is_consumed (rows st) = [true].
Proof. vm_compute. repeat split. Qed.

(** * Further properties of the mixin *)

(** ** What a call leaves behind *)

(** A write to the [Producer] table of one database leaves the others'. *)
Lemma producers_of_other_db (db db' : string) (t : gmap string Producer)
    (w : World) :
  db' <> db ->
  producers_of db'
    (mkWorld (outgoing w) (<[db := t]> (producers w)) (entities w) (clock_reads w))
  = producers_of db' w.
Proof.
  intros Hne. unfold producers_of. simpl.
  rewrite lookup_insert_ne by congruence. reflexivity.
Qed.

(** All that [sync_producer] does to the world. *)
Lemma sync_producer_effect (env : Env) (self : Instance) (db : string)
    (w : World) :
  exists w',
    sync_producer env self db w = (Ok (producer_name_of (hostname env) db), w')
    /\ outgoing w' = outgoing w
    /\ entities w' = entities w
    /\ clock_reads w' = clock_reads w
    /\ is_Some (producers_of db w' !! producer_name_of (hostname env) db)
    /\ (forall db', db' <> db -> producers_of db' w' = producers_of db' w).
Proof.
  destruct (producers_of db w !! producer_name_of (hostname env) db) eqn:Hget.
  - exists w. rewrite sync_producer_hit by (rewrite Hget; eauto).
    rewrite Hget. eauto 10.
  - destruct (concurrent_writer env db (producers_of db w)
                !! producer_name_of (hostname env) db) eqn:Hc.
    + eexists. rewrite sync_producer_miss_race by (rewrite ?Hc; eauto).
      split; [reflexivity|]. rewrite producers_of_concurrent_writes, Hc.
      simpl. repeat split; eauto.
      intros db' Hne. apply producers_of_other_db. assumption.
    + eexists. rewrite sync_producer_miss_insert by assumption.
      split; [reflexivity|]. simpl. repeat split.
      * unfold producers_of. simpl. rewrite lookup_insert_eq. simpl.
        rewrite lookup_insert_eq. eauto.
      * intros db' Hne. unfold producers_of. simpl.
        rewrite !lookup_insert_ne by congruence. reflexivity.
Qed.

(** All that a writing call does to the world. *)
Lemma to_outgoing_transaction_effect
    (env : Env) (self : Instance) (db : string) (created deleted : option bool)
    (w : World) :
  is_serialized (settings env) self = true ->
  db <> "default" ->
  exists t w',
    to_outgoing_transaction env self db created deleted w = (Ok (Some t), w')
    /\ t = {| tx_name := object_name (class_of self);
              tx_pk := id self;
              tx := encrypted_json env self;
              timestamp := strftime (wall_clock env (clock_reads w));
              producer := producer_name_of (hostname env) db;
              action := action_of created deleted;
              tx_using := db |}
    /\ outgoing_of db w' = (outgoing_of db w ++ [t])%list
    /\ (forall db', db' <> db -> outgoing_of db' w' = outgoing_of db' w)
    /\ clock_reads w' = S (clock_reads w)
    /\ entities w' = entities w
    /\ is_Some (producers_of db w' !! producer_name_of (hostname env) db)
    /\ (forall db', db' <> db -> producers_of db' w' = producers_of db' w).
Proof.
  intros Hser Hdb.
  unfold to_outgoing_transaction. rewrite Hser.
  destruct (String.eqb_spec db "default") as [->|_]; [congruence|].
  unfold bind at 1. unfold timezone_now.
  set (w1 := mkWorld (outgoing w) (producers w) (entities w) (S (clock_reads w))).
  destruct (sync_producer_effect env self db w1)
    as (w2 & Hret & Hout & Hent & Hclk & Hreg & Hframe).
  unfold bind at 1. rewrite Hret.
  unfold bind, OutgoingTransaction_create, ret.
  eexists. eexists. split; [reflexivity|]. split; [reflexivity|]. simpl.
  split; [|split; [|repeat split; assumption]].
  - unfold outgoing_of at 1. simpl. rewrite lookup_insert_eq. simpl.
    unfold outgoing_of. rewrite Hout. reflexivity.
  - intros db' Hne. unfold outgoing_of. simpl.
    rewrite lookup_insert_ne by congruence. rewrite Hout. reflexivity.
Qed.

(** ** The switches *)

(** [is_serialized] is true exactly when neither switch is set to
    [False]: a switch that is not set counts as enabled, and the result
    is the same for every instance. *)
Theorem is_serialized_iff_no_switch_off (s : Settings) (self : Instance) :
  (is_serialized s self = true
   <-> ALLOW_MODEL_SERIALIZATION s <> Some false
       /\ ALLOW_AUDIT_TRAIL_MODEL_SERIALIZATION s <> Some false)
  /\ (forall other : Instance, is_serialized s other = is_serialized s self).
Proof.
  unfold is_serialized.
  destruct (ALLOW_MODEL_SERIALIZATION s) as [[]|];
    destruct (ALLOW_AUDIT_TRAIL_MODEL_SERIALIZATION s) as [[]|];
    (split; [split; [intros H; try discriminate H; split; congruence
                    | intros [H1 H2]; congruence]
            | reflexivity]).
Qed.

(** ** The outcomes of [to_outgoing_transaction] *)

(** A call with [is_serialized] false is a no-op. *)
Lemma to_outgoing_transaction_skips
    (env : Env) (self : Instance) (db : string) (created deleted : option bool)
    (w : World) :
  is_serialized (settings env) self = false ->
  to_outgoing_transaction env self db created deleted w = (Ok None, w).
Proof.
  intros H. unfold to_outgoing_transaction. rewrite H. reflexivity.
Qed.

(** When [is_serialized] is false, for whichever switch, the call
    returns [None] and the world is untouched: no row, no producer, no
    reading of the clock, and no assertion even for [default]. *)
Theorem to_outgoing_transaction_not_serialized
    (env : Env) (self : Instance) (db : string) (created deleted : option bool)
    (w : World) :
  is_serialized (settings env) self = false ->
  to_outgoing_transaction env self db created deleted w = (Ok None, w)
  /\ outgoing (snd (to_outgoing_transaction env self db created deleted w))
     = outgoing w
  /\ producers (snd (to_outgoing_transaction env self db created deleted w))
     = producers w
  /\ clock_reads (snd (to_outgoing_transaction env self db created deleted w))
     = clock_reads w.
Proof.
  intros H. rewrite to_outgoing_transaction_skips by assumption.
  repeat split.
Qed.

Lemma to_outgoing_transaction_not_serialized_witness :
  is_serialized (settings (quiet_env (mkSettings None (Some false)))) erik = false
  /\ to_outgoing_transaction (quiet_env (mkSettings None (Some false))) erik
       "default" None None empty_world = (Ok None, empty_world).
Proof.
  split; [reflexivity|].
  apply (proj1 (to_outgoing_transaction_not_serialized
                  (quiet_env (mkSettings None (Some false))) erik "default"
                  None None empty_world eq_refl)).
Defined.

(** The three outcomes of a call and when each occurs: [None] when
    serialization is off; the assertion error, carrying the model's
    object name, when it is on and the database is [default]; a
    transaction in every other case.  The method raises nothing else. *)
Theorem to_outgoing_transaction_outcomes
    (env : Env) (self : Instance) (db : string) (created deleted : option bool)
    (w : World) :
  match fst (to_outgoing_transaction env self db created deleted w) with
  | Ok None => is_serialized (settings env) self = false
  | Ok (Some t) =>
      is_serialized (settings env) self = true /\ db <> "default"
      /\ tx_using t = db
  | Raise e =>
      is_serialized (settings env) self = true /\ db = "default"
      /\ e = AssertionError (object_name (class_of self))
  end.
Proof.
  destruct (is_serialized (settings env) self) eqn:Hser.
  - destruct (String.eqb_spec db "default") as [->|Hdb].
    + unfold to_outgoing_transaction. rewrite Hser. simpl. auto.
    + destruct (to_outgoing_transaction_effect env self db created deleted w
                  Hser Hdb) as (t & w' & Hrun & -> & _).
      rewrite Hrun. simpl. auto.
  - rewrite to_outgoing_transaction_skips by assumption. reflexivity.
Qed.

(** One call keeps the rows of every table as the first rows of the
    table. *)
Lemma to_outgoing_transaction_prefix
    (env : Env) (self : Instance) (db : string) (created deleted : option bool)
    (w : World) (db' : string) :
  outgoing_of db' w
    `prefix_of`
  outgoing_of db' (snd (to_outgoing_transaction env self db created deleted w)).
Proof.
  destruct (is_serialized (settings env) self) eqn:Hser.
  - destruct (String.eqb_spec db "default") as [->|Hdb].
    + rewrite to_outgoing_transaction_default_db_no_write. reflexivity.
    + destruct (to_outgoing_transaction_effect env self db created
                  deleted w Hser Hdb) as (t & w' & Hrun & _ & Happ & Hother & _).
      rewrite Hrun. simpl. destruct (decide (db' = db)) as [->|Hne].
      * rewrite Happ. apply prefix_app_r. reflexivity.
      * rewrite Hother by assumption. reflexivity.
  - rewrite to_outgoing_transaction_skips by assumption. reflexivity.
Qed.

(** ** The producer registry, further *)

(** A second call of [sync_producer] right after a first one finds the
    producer: it returns the same name and changes nothing, whatever the
    concurrent writers did during the first. *)
Theorem sync_producer_idempotent
    (env : Env) (self self' : Instance) (db : string) (w : World) :
  sync_producer env self' db (snd (sync_producer env self db w))
  = (fst (sync_producer env self db w), snd (sync_producer env self db w)).
Proof.
  destruct (sync_producer_effect env self db w) as (w' & Hret & _ & _ & _ & Hreg & _).
  rewrite Hret. simpl. apply sync_producer_hit. exact Hreg.
Qed.



(** [sync_producer] never alters a record that is there.  When the
    lookup finds the producer the world is unchanged, whatever the
    record's [url], [is_active] and [settings_key]; when it misses, every
    record in the table at the time of the insert, under any name, is in
    the table afterwards. *)
Theorem sync_producer_keeps_records
    (env : Env) (self : Instance) (db : string) (w : World) :
  (forall p, producers_of db w !! producer_name_of (hostname env) db = Some p ->
     snd (sync_producer env self db w) = w)
  /\ (producers_of db w !! producer_name_of (hostname env) db = None ->
      forall n p,
        concurrent_writer env db (producers_of db w) !! n = Some p ->
        producers_of db (snd (sync_producer env self db w)) !! n = Some p).
Proof.
  split.
  - intros p Hp. rewrite sync_producer_hit by (rewrite Hp; eauto). reflexivity.
  - intros Hmiss n p Hn.
    destruct (concurrent_writer env db (producers_of db w)
                !! producer_name_of (hostname env) db) eqn:Hc.
    + rewrite sync_producer_miss_race by (rewrite ?Hc; eauto).
      cbn [snd]. rewrite producers_of_concurrent_writes. exact Hn.
    + rewrite sync_producer_miss_insert by assumption.
      unfold producers_of at 1. simpl. rewrite lookup_insert_eq. simpl.
      rewrite lookup_insert_ne; [exact Hn|]. intros <-. congruence.
Qed.

Lemma sync_producer_keeps_records_witness :
  producers_of "client" (snd (sync_producer racing_env erik "client" empty_world))
    !! "mpp-client"
  = Some (mkProducer "mpp-client" "http://mpp/" true "client").
Proof.
  apply (proj2 (sync_producer_keeps_records racing_env erik "client" empty_world));
    reflexivity.
Defined.

(** When the lookup misses and no one else has registered the name, the
    record created is [name = hostname-database],
    [url = http://hostname/], [is_active = True],
    [settings_key = database], and the table has that one record more. *)
Theorem sync_producer_registers_new
    (env : Env) (self : Instance) (db : string) (w : World) :
  producers_of db w !! (hostname env ++ "-" ++ db) = None ->
  concurrent_writer env db (producers_of db w) !! (hostname env ++ "-" ++ db) = None ->
  producers_of db (snd (sync_producer env self db w))
  = <[hostname env ++ "-" ++ db :=
        {| name := hostname env ++ "-" ++ db;
           url := "http://" ++ hostname env ++ "/";
           is_active := true;
           settings_key := db |}]>
      (concurrent_writer env db (producers_of db w))
  /\ size (producers_of db (snd (sync_producer env self db w)))
     = S (size (concurrent_writer env db (producers_of db w))).
Proof.
  change (hostname env ++ "-" ++ db) with (producer_name_of (hostname env) db).
  intros Hmiss Hfree.
  assert (Htable :
            producers_of db (snd (sync_producer env self db w))
            = <[producer_name_of (hostname env) db := new_producer env db]>
                (concurrent_writer env db (producers_of db w))).
  { rewrite sync_producer_miss_insert by assumption.
    unfold producers_of at 1. simpl. rewrite lookup_insert_eq. reflexivity. }
  rewrite Htable. split; [reflexivity|].
  apply map_size_insert_None. exact Hfree.
Qed.

Lemma sync_producer_registers_new_witness :
  producers_of "client"
    (snd (sync_producer (quiet_env default_settings) erik "client" empty_world))
  = <["mpp-client" := mkProducer "mpp-client" "http://mpp/" true "client"]> ∅.
Proof.
  destruct (sync_producer_registers_new (quiet_env default_settings) erik
              "client" empty_world) as [Htable _].
  - reflexivity.
  - reflexivity.
  - exact Htable.
Defined.

(** ** Producer names *)

Lemma append_inv_head (s a b : string) : s ++ a = s ++ b -> a = b.
Proof. induction s as [|c s IH]; simpl; [auto | intros [= H]; auto]. Qed.

Lemma append_inv_tail (s a b : string) : a ++ s = b ++ s -> a = b.
Proof.
  revert b. induction a as [|c a IH]; intros [|c' b] H; simpl in H.
  - reflexivity.
  - apply (f_equal String.length) in H.
    rewrite !length_append in H. simpl in H. lia.
  - apply (f_equal String.length) in H.
    rewrite !length_append in H. simpl in H. lia.
  - injection H as -> H. f_equal. apply IH. exact H.
Qed.

(** On one host two databases have the same producer name only when
    they are the same database, and for one database alias two hosts
    have the same name only when they are the same host.  The name alone
    does not determine the pair: a host [a-b] with database [c] and a
    host [a] with database [b-c] share the name [a-b-c]. *)
Theorem producer_name_of_injective (host host' db db' : string) :
  (producer_name_of host db = producer_name_of host db' <-> db = db')
  /\ (producer_name_of host db = producer_name_of host' db <-> host = host')
  /\ producer_name_of "a-b" "c" = producer_name_of "a" "b-c".
Proof.
  unfold producer_name_of. repeat split.
  - intros H. apply append_inv_head in H. injection H as H. exact H.
  - intros ->. reflexivity.
  - intros H. apply (append_inv_tail ("-" ++ db)). exact H.
  - intros ->. reflexivity.
Qed.

(** ** The timestamp format *)

Lemma datetime_compare_Eq (a b : datetime) : datetime_compare a b = Eq -> a = b.
Proof.
  unfold datetime_compare. intros H.
  destruct (N.compare_spec (year a) (year b)); try discriminate H.
  destruct (N.compare_spec (month a) (month b)); try discriminate H.
  destruct (N.compare_spec (day a) (day b)); try discriminate H.
  destruct (N.compare_spec (hour a) (hour b)); try discriminate H.
  destruct (N.compare_spec (minute a) (minute b)); try discriminate H.
  destruct (N.compare_spec (second a) (second b)); try discriminate H.
  apply N.compare_eq_iff in H.
  destruct a, b; simpl in *; congruence.
Qed.

(** The timestamp of a valid datetime is twenty decimal digits, the
    first of them not a zero; [int] reads it as the number made of the
    datetime's fields. *)
Theorem strftime_shape (t : datetime) :
  valid_datetime t = true ->
  String.length (strftime t) = 20
  /\ all_digits (strftime t) = true
  /\ int (strftime t) = Some (timestamp_value t)
  /\ (10 ^ 19 <= timestamp_value t < 10 ^ 20)%N.
Proof.
  intros H. split; [apply length_strftime|]. split; [apply all_digits_strftime|].
  split; [apply int_strftime; exact H|].
  apply valid_datetime_bounds in H. unfold timestamp_value.
  change (10 ^ 19)%N with 10000000000000000000%N.
  change (10 ^ 20)%N with 100000000000000000000%N. lia.
Qed.

Lemma strftime_shape_witness :
  String.length (strftime noon) = 20
  /\ all_digits (strftime noon) = true
  /\ int (strftime noon) = Some (timestamp_value noon)
  /\ (10 ^ 19 <= timestamp_value noon < 10 ^ 20)%N.
Proof. apply (strftime_shape noon). reflexivity. Defined.

(** Two valid datetimes with the same timestamp are the same datetime:
    the format loses nothing of the clock reading. *)
Theorem strftime_injective (a b : datetime) :
  valid_datetime a = true -> valid_datetime b = true ->
  strftime a = strftime b -> a = b.
Proof.
  intros Ha Hb H. apply datetime_compare_Eq.
  rewrite <- timestamp_value_compare by assumption.
  rewrite <- !digits_value_strftime by assumption. rewrite H.
  apply N.compare_refl.
Qed.

Lemma strftime_injective_witness :
  valid_datetime noon = true
  /\ strftime noon = "20151005120000000000"
  /\ noon = mkDatetime 2015 10 5 12 0 0 0.
Proof.
  split; [reflexivity|]. split; [reflexivity|].
  apply (strftime_injective noon (mkDatetime 2015 10 5 12 0 0 0)); reflexivity.
Defined.

(** ** What a writing call registers *)



(** ** Successive calls *)

(** However many calls are made for a database and whatever their
    outcomes, in every database the rows that were in the table are
    still its first rows, in their order: the method neither removes nor
    rewrites a transaction. *)
Theorem replay_append_only
    (env : Env) (db : string) (calls : list Call) (w : World) (db' : string) :
  outgoing_of db' w `prefix_of` outgoing_of db' (replay env db calls w).
Proof.
  revert w. induction calls as [|c calls IH]; intros w; simpl.
  - reflexivity.
  - etransitivity; [|apply IH]. apply to_outgoing_transaction_prefix.
Qed.






(** The [Producer] table of [db] after [sync_producer], by cases on the
    lookup and on what the concurrent writer left. *)
Lemma sync_producer_table (env : Env) (self : Instance) (db : string) (w : World) :
  producers_of db (snd (sync_producer env self db w))
  = match producers_of db w !! producer_name_of (hostname env) db with
    | Some _ => producers_of db w
    | None =>
        match concurrent_writer env db (producers_of db w)
                !! producer_name_of (hostname env) db with
        | Some _ => concurrent_writer env db (producers_of db w)
        | None =>
            <[producer_name_of (hostname env) db := new_producer env db]>
              (concurrent_writer env db (producers_of db w))
        end
    end.
Proof.
  destruct (producers_of db w !! producer_name_of (hostname env) db) eqn:Hget.
  - rewrite sync_producer_hit by (rewrite Hget; eauto). reflexivity.
  - destruct (concurrent_writer env db (producers_of db w)
                !! producer_name_of (hostname env) db) eqn:Hc.
    + rewrite sync_producer_miss_race by (rewrite ?Hc; eauto).
      cbn [snd]. apply producers_of_concurrent_writes.
    + rewrite sync_producer_miss_insert by assumption.
      unfold producers_of at 1. simpl. rewrite lookup_insert_eq. reflexivity.
Qed.

(** A writing call leaves the [Producer] table that its [sync_producer]
    leaves. *)
Lemma to_outgoing_transaction_table
    (env : Env) (self : Instance) (db : string) (created deleted : option bool)
    (w : World) :
  is_serialized (settings env) self = true ->
  db <> "default" ->
  producers_of db (snd (to_outgoing_transaction env self db created deleted w))
  = producers_of db (snd (sync_producer env self db w)).
Proof.
  intros Hser Hdb. rewrite (sync_producer_table env self db w).
  unfold to_outgoing_transaction. rewrite Hser.
  destruct (String.eqb_spec db "default") as [->|_]; [congruence|].
  unfold bind at 1. unfold timezone_now.
  set (w1 := mkWorld (outgoing w) (producers w) (entities w) (S (clock_reads w))).
  pose proof (sync_producer_table env self db w1) as Htable.
  destruct (sync_producer_total env self db w1) as (w2 & Hret & _).
  unfold bind at 1. rewrite Hret in *.
  unfold bind, OutgoingTransaction_create, ret. cbn [snd] in *.
  exact Htable.
Qed.

(** In a run of writing calls in which no other connection writes to
    the [Producer] table, the table gets the producer of the database
    with the first call, if it was not there, and nothing after: however
    many transactions are written, one producer is registered. *)
Theorem replay_one_producer
    (env : Env) (db : string) (calls : list Call) (w : World) :
  (forall t, concurrent_writer env db t = t) ->
  Forall (fun c => is_serialized (settings env) (call_self c) = true) calls ->
  db <> "default" ->
  calls <> [] ->
  producers_of db (replay env db calls w)
  = match producers_of db w !! (hostname env ++ "-" ++ db) with
    | Some _ => producers_of db w
    | None =>
        <[hostname env ++ "-" ++ db :=
            {| name := hostname env ++ "-" ++ db;
               url := "http://" ++ hostname env ++ "/";
               is_active := true;
               settings_key := db |}]> (producers_of db w)
    end
  /\ size (producers_of db (replay env db calls w)) <= S (size (producers_of db w)).
Proof.
  change (hostname env ++ "-" ++ db) with (producer_name_of (hostname env) db).
  intros Hquiet Hser Hdb Hne.
  assert (Hstep : forall c w0,
            is_serialized (settings env) (call_self c) = true ->
            producers_of db
              (snd (to_outgoing_transaction env (call_self c) db (call_created c)
                      (call_deleted c) w0))
            = match producers_of db w0 !! producer_name_of (hostname env) db with
              | Some _ => producers_of db w0
              | None => <[producer_name_of (hostname env) db := new_producer env db]>
                          (producers_of db w0)
              end).
  { intros c w0 Hc. rewrite to_outgoing_transaction_table by assumption.
    rewrite sync_producer_table, Hquiet.
    destruct (producers_of db w0 !! producer_name_of (hostname env) db);
      reflexivity. }
  assert (Hkeep : forall cs w0,
            Forall (fun c => is_serialized (settings env) (call_self c) = true) cs ->
            is_Some (producers_of db w0 !! producer_name_of (hostname env) db) ->
            producers_of db (replay env db cs w0) = producers_of db w0).
  { intros cs w0 Hcs. revert w0.
    induction Hcs as [|c cs Hc Hcs IH]; intros w0 [p Hp]; [reflexivity|].
    simpl. rewrite IH; rewrite (Hstep c w0 Hc), Hp; eauto. }
  assert (Htable :
            producers_of db (replay env db calls w)
            = match producers_of db w !! producer_name_of (hostname env) db with
              | Some _ => producers_of db w
              | None => <[producer_name_of (hostname env) db := new_producer env db]>
                          (producers_of db w)
              end).
  { destruct Hser as [|c cs Hc Hcs]; [congruence|]. simpl.
    rewrite Hkeep; [apply Hstep; exact Hc | exact Hcs |].
    rewrite (Hstep c w Hc).
    destruct (producers_of db w !! producer_name_of (hostname env) db) eqn:E.
    - rewrite E. eauto.
    - rewrite lookup_insert_eq. eauto. }
  split; [exact Htable|]. rewrite Htable.
  destruct (producers_of db w !! producer_name_of (hostname env) db) eqn:E.
  - lia.
  - rewrite map_size_insert_None by exact E. lia.
Qed.

Lemma replay_one_producer_witness :
  producers_of "client"
    (replay (quiet_env default_settings) "client"
       [mkCall erik (Some true) None; mkCall erik (Some false) None]
       empty_world)
  = <["mpp-client" := mkProducer "mpp-client" "http://mpp/" true "client"]> ∅.
Proof.
  apply (proj1 (replay_one_producer (quiet_env default_settings) "client"
                  [mkCall erik (Some true) None; mkCall erik (Some false) None]
                  empty_world (fun t => eq_refl) ltac:(repeat constructor)
                  ltac:(discriminate) ltac:(discriminate))).
Defined.
